(** * Darknet weight loading (smol/utils/darknet.py)

    A shallow embedding of [darknet_numel], [_load_conv_norm], [_load_conv]
    and [load_darknet_weights].  Tensors hold float32 values as their 32-bit
    patterns (a [Z] in [0, 2^32)), so a copy is a copy of the bits; a file is
    a list of bytes, each an 8-bit [Z]. *)

From Stdlib Require Import List ZArith Lia Bool Arith.
Import ListNotations.
Open Scope Z_scope.

(** ** Data model *)

(** A torch tensor: its shape and its row-major contents. *)
Record tensor := mkTensor { shape : list nat; data : list Z }.

(** [Tensor.numel]: the product of the shape's dimensions. *)
Definition numel (t : tensor) : nat := fold_right Nat.mul 1%nat (shape t).

(** An [nn.Parameter]: a tensor and its [requires_grad] flag. *)
Record param := mkParam { value : tensor; requires_grad : bool }.

(** [nn.BatchNorm2d]: affine parameters and the running-statistics buffers,
    which BatchNorm2d always allocates as 1-D vectors of [num_features]
    elements; [len] of such a buffer is its number of elements. *)
Record batchnorm2d := mkBN {
  bn_weight : param;
  bn_bias : param;
  running_mean : list Z;
  running_var : list Z }.

(** [nn.Conv2d]: a weight and an optional bias ([bias=False] gives [None]). *)
Record conv2d := mkConv { conv_weight : param; conv_bias : option param }.

(** Modelled from the spec: the [ConvLayer] class of [smol.modules] (not in
    the sources), a convolution with a [batch_norm] flag and, when
    normalization is present, its [nn.BatchNorm2d] sub-layer [norm]. *)
Record conv_layer := mkConvLayer {
  batch_norm : bool;
  conv : conv2d;
  norm : option batchnorm2d }.

(** An [nn.Module] tree: a [ConvLayer], a [BatchNorm2d], or any other module
    with its own parameters and its ordered children.  Parameters are not
    shared between modules. *)
#[warnings="-register-all"]
Inductive module :=
| ConvLayer (l : conv_layer)
| BatchNorm2d (bn : batchnorm2d)
| Module (params : list param) (children : list module).

(** [model.named_children()] restricted to what [load_darknet_weights]
    looks at: the children of a [ConvLayer] ([conv], [norm]) and of a
    [BatchNorm2d] (none) are never [ConvLayer]s, so they are left out. *)
Definition named_children (m : module) : list module :=
  match m with
  | Module _ cs => cs
  | _ => []
  end.

Definition with_children (m : module) (cs : list module) : module :=
  match m with
  | Module ps _ => Module ps cs
  | _ => m
  end.

(** ** [darknet_numel] *)

Definition conv_layer_params (l : conv_layer) : list param :=
  conv_weight (conv l)
    :: match conv_bias (conv l) with Some b => [b] | None => [] end
    ++ match norm l with Some bn => [bn_weight bn; bn_bias bn] | None => [] end.

(** [model.parameters()]: own parameters first, then the children's. *)
Fixpoint parameters (m : module) : list param :=
  match m with
  | ConvLayer l => conv_layer_params l
  | BatchNorm2d bn => [bn_weight bn; bn_bias bn]
  | Module ps cs => ps ++ flat_map parameters cs
  end.

(** The [nn.BatchNorm2d] instances among [model.modules()]. *)
Fixpoint batchnorms (m : module) : list batchnorm2d :=
  match m with
  | ConvLayer l => match norm l with Some bn => [bn] | None => [] end
  | BatchNorm2d bn => [bn]
  | Module _ cs => flat_map batchnorms cs
  end.

Definition sum_nat (l : list nat) : nat := fold_right Nat.add 0%nat l.

Definition darknet_numel (model : module) : nat :=
  let num_params :=
    sum_nat (map (fun p => numel (value p))
                 (filter requires_grad (parameters model))) in
  fold_left
    (fun n bn => (n + length (running_mean bn) + length (running_var bn))%nat)
    (batchnorms model) num_params.

(** ** Errors *)

Inductive error :=
| TruncatedHeader    (* ValueError of [major, minor, revision, seen, _ = header] *)
| UnmatchingWeights  (* ValueError("Unmatching number of weights") *)
| ViewError          (* RuntimeError of [view_as] on a wrong element count *)
| AttributeError.    (* [module.norm] or [module.conv.bias] is None *)

Definition result (A : Type) : Type := (error + A)%type.

Definition bind {A B} (r : result A) (k : A -> result B) : result B :=
  match r with inl e => inl e | inr a => k a end.

Notation "'let*' x := r 'in' k" := (bind r (fun x => k))
  (at level 200, x name, r at level 100, k at level 200).

(** ** Slicing, [view_as] and [copy_] *)

(** [weights[:n], weights[n:]] *)
Definition split_at (n : nat) (ws : list Z) : list Z * list Z :=
  (firstn n ws, skipn n ws).

(** [torch.from_numpy(slice).view_as(t)]: fails unless the slice has
    exactly [t.numel()] elements. *)
Definition view_as (slice : list Z) (t : tensor) : result tensor :=
  if Nat.eqb (length slice) (numel t) then inr (mkTensor (shape t) slice)
  else inl ViewError.

(** The same for a 1-D running-statistics buffer. *)
Definition view_as_vec (slice : list Z) (v : list Z) : result (list Z) :=
  if Nat.eqb (length slice) (length v) then inr slice else inl ViewError.

(** [p.data.copy_(src)] for a source of the same shape. *)
Definition copy_param (p : param) (src : tensor) : param :=
  mkParam (mkTensor (shape (value p)) (data src)) (requires_grad p).

(** ** [_load_conv_norm] and [_load_conv]

    Both take the remaining flat array and a [ConvLayer]; they return the
    layer with its tensors overwritten and the rest of the array.  All
    [view_as] calls come before the first [copy_], so a failing view leaves
    the layer untouched. *)

Definition _load_conv_norm (weights : list Z) (module : conv_layer)
    : result (conv_layer * list Z) :=
  match norm module with
  | None => inl AttributeError
  | Some bn =>
    let norm_bias_numel := numel (value (bn_bias bn)) in
    let '(norm_bias, weights) := split_at norm_bias_numel weights in
    let* norm_bias := view_as norm_bias (value (bn_bias bn)) in

    let norm_weight_numel := numel (value (bn_weight bn)) in
    let '(norm_weight, weights) := split_at norm_weight_numel weights in
    let* norm_weight := view_as norm_weight (value (bn_weight bn)) in

    let norm_mean_numel := length (running_mean bn) in
    let '(norm_mean, weights) := split_at norm_mean_numel weights in
    let* norm_mean := view_as_vec norm_mean (running_mean bn) in

    let norm_var_numel := length (running_var bn) in
    let '(norm_var, weights) := split_at norm_var_numel weights in
    let* norm_var := view_as_vec norm_var (running_var bn) in

    let conv_weight_numel := numel (value (conv_weight (conv module))) in
    let '(cw, weights) := split_at conv_weight_numel weights in
    let* cw := view_as cw (value (conv_weight (conv module))) in

    let bn' := mkBN (copy_param (bn_weight bn) norm_weight)
                    (copy_param (bn_bias bn) norm_bias)
                    norm_mean norm_var in
    let conv' := mkConv (copy_param (conv_weight (conv module)) cw)
                        (conv_bias (conv module)) in
    inr (mkConvLayer (batch_norm module) conv' (Some bn'), weights)
  end.

Definition _load_conv (weights : list Z) (module : conv_layer)
    : result (conv_layer * list Z) :=
  match conv_bias (conv module) with
  | None => inl AttributeError
  | Some b =>
    let conv_bias_numel := numel (value b) in
    let '(cb, weights) := split_at conv_bias_numel weights in
    let* cb := view_as cb (value b) in

    let conv_weight_numel := numel (value (conv_weight (conv module))) in
    let '(cw, weights) := split_at conv_weight_numel weights in
    let* cw := view_as cw (value (conv_weight (conv module))) in

    let conv' := mkConv (copy_param (conv_weight (conv module)) cw)
                        (Some (copy_param b cb)) in
    inr (mkConvLayer (batch_norm module) conv' (norm module), weights)
  end.

(** The loop [for name, module in model.named_children(): ...]: the
    children as they stand when the loop stops, and either the error that
    stopped it or the rest of the array. *)
Fixpoint load_children (cs : list module) (weights : list Z)
    : list module * result (list Z) :=
  match cs with
  | [] => ([], inr weights)
  | c :: cs' =>
    match c with
    | ConvLayer l =>
      match (if batch_norm l then _load_conv_norm weights l
             else _load_conv weights l) with
      | inl e => (c :: cs', inl e)
      | inr (l', weights') =>
        let '(cs'', r) := load_children cs' weights' in
        (ConvLayer l' :: cs'', r)
      end
    | _ =>
      let '(cs'', r) := load_children cs' weights in
      (c :: cs'', r)
    end
  end.

(** ** Reading the file *)

(** Bytes [b0 b1 b2 b3] as the little-endian unsigned 32-bit word. *)
Definition le32 (b0 b1 b2 b3 : Z) : Z :=
  b0 + b1 * 2 ^ 8 + b2 * 2 ^ 16 + b3 * 2 ^ 24.

(** The signed reading of a 32-bit word ([np.int32]). *)
Definition to_int32 (u : Z) : Z :=
  if u <? 2 ^ 31 then u else u - 2 ^ 32.

(** The 32-bit words of a byte sequence; a trailing partial word is not
    read (as [np.fromfile] does). *)
Fixpoint words32 (bs : list Z) : list Z :=
  match bs with
  | b0 :: b1 :: b2 :: b3 :: rest => le32 b0 b1 b2 b3 :: words32 rest
  | _ => []
  end.

(** [np.fromfile(f, count=5, dtype=np.int32)]: at most 20 bytes are read,
    the stream is left after them. *)
Definition fromfile_int32_5 (f : list Z) : list Z * list Z :=
  (map to_int32 (words32 (firstn 20 f)), skipn 20 f).

(** [np.fromfile(f, dtype=np.float32)]: the rest of the stream, as bits. *)
Definition fromfile_float32 (f : list Z) : list Z := words32 f.

(** [major, minor, revision, seen, _ = header] *)
Definition unpack_header (header : list Z) : result (Z * Z * Z * Z * Z) :=
  match header with
  | [major; minor; revision; seen; r] => inr (major, minor, revision, seen, r)
  | _ => inl TruncatedHeader
  end.

(** Lines 67-72: the header reader. *)
Definition read_header (f : list Z) : result ((Z * Z * Z * Z * Z) * list Z) :=
  let '(header, rest) := fromfile_int32_5 f in
  let* h := unpack_header header in
  inr (h, rest).

(** [load_darknet_weights model weights_path], the file given by its bytes:
    the model as it stands at the end and the outcome (an exception or the
    returned [success]).  The version string and the print are not
    modelled. *)
Definition load_darknet_weights (model : module) (file : list Z)
    : module * result bool :=
  let '(header, rest) := fromfile_int32_5 file in
  let weights := fromfile_float32 rest in
  match unpack_header header with
  | inl e => (model, inl e)
  | inr _ =>
    if negb (Nat.eqb (darknet_numel model) (length weights))
    then (model, inl UnmatchingWeights)
    else
      let '(cs, r) := load_children (named_children model) weights in
      (with_children model cs,
       let* weights := r in
       inr (Nat.eqb (length weights) 0))
  end.

(** ** Writing the file (the inverse direction, for the round trip) *)

(** The four little-endian bytes of a 32-bit word. *)
Definition bytes_of_word (z : Z) : list Z :=
  [Z.land z 255; Z.land (Z.shiftr z 8) 255;
   Z.land (Z.shiftr z 16) 255; Z.land (Z.shiftr z 24) 255].

Definition bytes_of_words (zs : list Z) : list Z := flat_map bytes_of_word zs.

(** Following the spec's words: the payload a Darknet writer emits for a
    model, layer by layer over the direct children; a normalized layer
    writes normalization bias, weight, running mean, running variance and
    convolution weight, a plain one its convolution bias and weight. *)
Definition darknet_layer_payload (l : conv_layer) : list Z :=
  if batch_norm l then
    match norm l with
    | Some bn => data (value (bn_bias bn)) ++ data (value (bn_weight bn))
                 ++ running_mean bn ++ running_var bn
                 ++ data (value (conv_weight (conv l)))
    | None => []
    end
  else
    match conv_bias (conv l) with
    | Some b => data (value b) ++ data (value (conv_weight (conv l)))
    | None => []
    end.

Definition darknet_payload (model : module) : list Z :=
  flat_map (fun c => match c with
                     | ConvLayer l => darknet_layer_payload l
                     | _ => []
                     end) (named_children model).

(** A file: a 20-byte header (five words) and the payload. *)
Definition darknet_file (header : list Z) (model : module) : list Z :=
  bytes_of_words header ++ bytes_of_words (darknet_payload model).

(** A slice written into a parameter: same shape and flag, new contents. *)
Definition overwritten (p : param) (d : list Z) : param :=
  mkParam (mkTensor (shape (value p)) d) (requires_grad p).

Definition is_conv_layer (m : module) : bool :=
  match m with ConvLayer _ => true | _ => false end.

(** The signed little-endian 32-bit word at byte offset [i] of a file. *)
Definition int32_at (f : list Z) (i : nat) : Z :=
  to_int32 (le32 (nth i f 0) (nth (i + 1) f 0) (nth (i + 2) f 0)
                 (nth (i + 3) f 0)).

(** A tensor as torch holds it: [numel] elements, each a float32 pattern. *)
Definition tensor_wf (t : tensor) : Prop :=
  length (data t) = numel t /\ Forall (fun z => 0 <= z < 2 ^ 32) (data t).

Definition vec_wf (v : list Z) : Prop := Forall (fun z => 0 <= z < 2 ^ 32) v.

(** The layers a Darknet file describes: a normalized layer has its [norm]
    and no convolution bias, a plain one a bias and no [norm]; every
    parameter requires gradients. *)
Definition darknet_layer_ok (l : conv_layer) : Prop :=
  tensor_wf (value (conv_weight (conv l))) /\
  requires_grad (conv_weight (conv l)) = true /\
  if batch_norm l then
    conv_bias (conv l) = None /\
    exists bn, norm l = Some bn /\
      tensor_wf (value (bn_weight bn)) /\ tensor_wf (value (bn_bias bn)) /\
      requires_grad (bn_weight bn) = true /\
      requires_grad (bn_bias bn) = true /\
      vec_wf (running_mean bn) /\ vec_wf (running_var bn)
  else
    norm l = None /\
    exists b, conv_bias (conv l) = Some b /\
      tensor_wf (value b) /\ requires_grad b = true.

Definition child_payload (c : module) : list Z :=
  match c with ConvLayer l => darknet_layer_payload l | _ => [] end.

Definition darknet_child_ok (c : module) : Prop :=
  match c with
  | ConvLayer l => darknet_layer_ok l
  | _ => darknet_numel c = 0%nat
  end.

(** A model that Darknet describes completely: a container whose own
    parameters and whose children other than [ConvLayer]s add nothing to
    [darknet_numel], and whose [ConvLayer] children are as above. *)
Definition darknet_model_ok (model : module) : Prop :=
  exists ps cs, model = Module ps cs /\
    darknet_numel (Module ps []) = 0%nat /\ Forall darknet_child_ok cs.

(** ** What the loop takes from the array *)

(** Elements [_load_conv_norm] takes for a layer with its [norm]. *)
Definition norm_layer_numel (l : conv_layer) (bn : batchnorm2d) : nat :=
  (numel (value (bn_bias bn)) + numel (value (bn_weight bn))
   + length (running_mean bn) + length (running_var bn)
   + numel (value (conv_weight (conv l))))%nat.

(** Elements [_load_conv] takes for a layer with its bias. *)
Definition conv_layer_numel (l : conv_layer) (b : param) : nat :=
  (numel (value b) + numel (value (conv_weight (conv l))))%nat.

(** What a parameter adds to [darknet_numel]. *)
Definition pnum (p : param) : nat :=
  if requires_grad p then numel (value p) else 0%nat.

(** A child the loop can handle: a normalized [ConvLayer] with its [norm],
    a plain one with its bias, or any other module. *)
Definition loadable (c : module) : bool :=
  match c with
  | ConvLayer l =>
    if batch_norm l then match norm l with Some _ => true | None => false end
    else match conv_bias (conv l) with Some _ => true | None => false end
  | _ => true
  end.

(** Elements the loop takes for a loadable child. *)
Definition consumed (c : module) : nat :=
  match c with
  | ConvLayer l =>
    if batch_norm l then
      match norm l with Some bn => norm_layer_numel l bn | None => 0 end
    else
      match conv_bias (conv l) with Some b => conv_layer_numel l b | None => 0 end
  | _ => 0
  end.

(** ** Concrete models *)

Definition blk (start n : nat) : list Z := map Z.of_nat (seq start n).

Definition grad_param (sh : list nat) : param :=
  mkParam (mkTensor sh (repeat 0 (fold_right Nat.mul 1%nat sh))) true.

(** The plain layer of the spec's example: weight [2,1,3,3], bias [2]. *)
Definition ex_plain : conv_layer :=
  mkConvLayer false (mkConv (grad_param [2;1;3;3]%nat)
                            (Some (grad_param [2]%nat))) None.

(** A normalized layer: four 4-element norm tensors, weight [4,1,3,3]. *)
Definition ex_bn : batchnorm2d :=
  mkBN (grad_param [4]%nat) (grad_param [4]%nat) (repeat 0 4) (repeat 1 4).

Definition ex_norm : conv_layer :=
  mkConvLayer true (mkConv (grad_param [4;1;3;3]%nat) None) (Some ex_bn).

(** An activation-like child without parameters. *)
Definition ex_act : module := Module [] [].

Definition ex_header : list Z := [0; 2; 5; 32013312; 0].

(** The spec's example model, and the same behind an extra level. *)
Definition ex_model : module := Module [] [ConvLayer ex_plain].

Definition ex_nested : module := Module [] [Module [] [ConvLayer ex_plain]].

(** The spec's plain layer next to the same layer one level down. *)
Definition ex_mixed : module :=
  Module [] [ConvLayer ex_plain; Module [] [ConvLayer ex_plain]].

(** The plain layer with every parameter frozen, one level down. *)
Definition frozen_param (sh : list nat) : param :=
  mkParam (mkTensor sh (repeat 0 (fold_right Nat.mul 1%nat sh))) false.

Definition ex_frozen : module :=
  Module [] [Module [] [ConvLayer (mkConvLayer false
    (mkConv (frozen_param [2;1;3;3]%nat) (Some (frozen_param [2]%nat))) None)]].

(** A model with a parameter outside any [ConvLayer]. *)
Definition ex_extra : module :=
  Module [] [ConvLayer ex_plain; Module [grad_param [3]%nat] []].

Definition ex_full : module :=
  Module [] [ConvLayer ex_plain; ex_act; ConvLayer ex_norm].

(** ** Basic facts *)

Lemma split_at_app (a b : list Z) (n : nat) :
  length a = n -> split_at n (a ++ b) = (a, b).
Proof.
  intros <-. unfold split_at. induction a as [|x a IH]; [reflexivity|].
  cbn. injection IH as H1 H2. now rewrite H1, H2.
Qed.

Lemma view_as_ok (s : list Z) (t : tensor) :
  length s = numel t -> view_as s t = inr (mkTensor (shape t) s).
Proof. intros H. unfold view_as. now rewrite H, Nat.eqb_refl. Qed.

Lemma view_as_vec_ok (s v : list Z) :
  length s = length v -> view_as_vec s v = inr s.
Proof. intros H. unfold view_as_vec. now rewrite H, Nat.eqb_refl. Qed.

Lemma load_conv_norm_ok (l : conv_layer) (bn : batchnorm2d)
    (nb nw mu var cw rest : list Z) :
  norm l = Some bn ->
  length nb = numel (value (bn_bias bn)) ->
  length nw = numel (value (bn_weight bn)) ->
  length mu = length (running_mean bn) ->
  length var = length (running_var bn) ->
  length cw = numel (value (conv_weight (conv l))) ->
  _load_conv_norm (nb ++ nw ++ mu ++ var ++ cw ++ rest) l =
  inr (mkConvLayer (batch_norm l)
         (mkConv (overwritten (conv_weight (conv l)) cw) (conv_bias (conv l)))
         (Some (mkBN (overwritten (bn_weight bn) nw)
                     (overwritten (bn_bias bn) nb) mu var)), rest).
Proof.
  intros Hn H1 H2 H3 H4 H5. unfold _load_conv_norm. rewrite Hn.
  rewrite (split_at_app _ _ _ H1), (view_as_ok _ _ H1). cbn [bind].
  rewrite (split_at_app _ _ _ H2), (view_as_ok _ _ H2). cbn [bind].
  rewrite (split_at_app _ _ _ H3), (view_as_vec_ok _ _ H3). cbn [bind].
  rewrite (split_at_app _ _ _ H4), (view_as_vec_ok _ _ H4). cbn [bind].
  rewrite (split_at_app _ _ _ H5), (view_as_ok _ _ H5). reflexivity.
Qed.

Lemma load_conv_ok (l : conv_layer) (b : param) (cb cw rest : list Z) :
  conv_bias (conv l) = Some b ->
  length cb = numel (value b) ->
  length cw = numel (value (conv_weight (conv l))) ->
  _load_conv (cb ++ cw ++ rest) l =
  inr (mkConvLayer (batch_norm l)
         (mkConv (overwritten (conv_weight (conv l)) cw)
                 (Some (overwritten b cb)))
         (norm l), rest).
Proof.
  intros Hb H1 H2. unfold _load_conv. rewrite Hb.
  rewrite (split_at_app _ _ _ H1), (view_as_ok _ _ H1). cbn [bind].
  rewrite (split_at_app _ _ _ H2), (view_as_ok _ _ H2). reflexivity.
Qed.

Lemma load_children_other (c : module) (cs : list module) (ws : list Z) :
  is_conv_layer c = false ->
  load_children (c :: cs) ws =
  let '(cs', r) := load_children cs ws in (c :: cs', r).
Proof. destruct c; [discriminate | reflexivity | reflexivity]. Qed.

(** ** C1: the normalized-layer order *)

(** C1. For a [ConvLayer] with [batch_norm] (and its [norm]), the loop
    consumes from the front of the array, in this order, exactly
    [norm.bias.numel()], [norm.weight.numel()], [len(running_mean)],
    [len(running_var)] and [conv.weight.numel()] elements, writes each slice
    into that tensor (shape kept) and goes on with the rest; the convolution
    bias is left as it was and nothing is consumed for it. *)
Theorem load_children_conv_norm_order
    (l : conv_layer) (bn : batchnorm2d) (cs : list module)
    (nb nw mu var cw rest : list Z) :
  batch_norm l = true ->
  norm l = Some bn ->
  length nb = numel (value (bn_bias bn)) ->
  length nw = numel (value (bn_weight bn)) ->
  length mu = length (running_mean bn) ->
  length var = length (running_var bn) ->
  length cw = numel (value (conv_weight (conv l))) ->
  load_children (ConvLayer l :: cs) (nb ++ nw ++ mu ++ var ++ cw ++ rest) =
  let '(cs', r) := load_children cs rest in
  (ConvLayer
     (mkConvLayer true
        (mkConv (overwritten (conv_weight (conv l)) cw) (conv_bias (conv l)))
        (Some (mkBN (overwritten (bn_weight bn) nw)
                    (overwritten (bn_bias bn) nb) mu var))) :: cs', r).
Proof.
  intros Hb Hn H1 H2 H3 H4 H5. cbn [load_children]. rewrite Hb.
  rewrite (load_conv_norm_ok l bn nb nw mu var cw rest Hn H1 H2 H3 H4 H5).
  rewrite Hb. reflexivity.
Qed.

Lemma load_children_conv_norm_order_witness :
  load_children [ConvLayer ex_norm]
    (blk 1 4 ++ blk 5 4 ++ blk 9 4 ++ blk 13 4 ++ blk 17 36 ++ []) =
  ([ConvLayer
      (mkConvLayer true
         (mkConv (overwritten (grad_param [4;1;3;3]%nat) (blk 17 36)) None)
         (Some (mkBN (overwritten (grad_param [4]%nat) (blk 5 4))
                     (overwritten (grad_param [4]%nat) (blk 1 4))
                     (blk 9 4) (blk 13 4))))], inr []).
Proof.
  exact (load_children_conv_norm_order ex_norm ex_bn []
           (blk 1 4) (blk 5 4) (blk 9 4) (blk 13 4) (blk 17 36) []
           eq_refl eq_refl eq_refl eq_refl eq_refl eq_refl eq_refl).
Defined.

(** ** C3: the plain-layer order *)

(** C3. For a [ConvLayer] without [batch_norm] (a convolution with a bias),
    the loop consumes from the front of the array exactly
    [conv.bias.numel()] elements for the bias, then [conv.weight.numel()]
    for the weight, writes each slice into that tensor (shape kept) and goes
    on with the rest. *)
Theorem load_children_conv_order
    (l : conv_layer) (b : param) (cs : list module) (cb cw rest : list Z) :
  batch_norm l = false ->
  conv_bias (conv l) = Some b ->
  length cb = numel (value b) ->
  length cw = numel (value (conv_weight (conv l))) ->
  load_children (ConvLayer l :: cs) (cb ++ cw ++ rest) =
  let '(cs', r) := load_children cs rest in
  (ConvLayer
     (mkConvLayer false
        (mkConv (overwritten (conv_weight (conv l)) cw)
                (Some (overwritten b cb)))
        (norm l)) :: cs', r).
Proof.
  intros Hbn Hb H1 H2. cbn [load_children]. rewrite Hbn.
  rewrite (load_conv_ok l b cb cw rest Hb H1 H2), Hbn. reflexivity.
Qed.

(** The spec's example: bias [b0,b1], weight [w0..w17], nothing left. *)
Lemma load_children_conv_order_witness :
  load_children [ConvLayer ex_plain] (blk 1 2 ++ blk 3 18 ++ []) =
  ([ConvLayer
      (mkConvLayer false
         (mkConv (overwritten (grad_param [2;1;3;3]%nat) (blk 3 18))
                 (Some (overwritten (grad_param [2]%nat) (blk 1 2))))
         None)], inr []).
Proof.
  exact (load_children_conv_order ex_plain (grad_param [2]%nat) []
           (blk 1 2) (blk 3 18) []
           eq_refl eq_refl eq_refl eq_refl).
Defined.

(** ** C7: other layers are skipped *)

(** C7. A child that is not a [ConvLayer] consumes nothing and is left as
    it is; the loop goes on with the next child and the same array. *)
Theorem load_children_skip (c : module) (cs : list module) (ws : list Z) :
  is_conv_layer c = false ->
  load_children (c :: cs) ws =
  let '(cs', r) := load_children cs ws in (c :: cs', r).
Proof. exact (load_children_other c cs ws). Qed.

Lemma load_children_skip_witness :
  load_children [ex_act; ConvLayer ex_plain] (blk 1 20) =
  let '(cs', r) := load_children [ConvLayer ex_plain] (blk 1 20) in
  (ex_act :: cs', r).
Proof. exact (load_children_skip ex_act _ _ eq_refl). Defined.

(** ** The header and the count check *)

Ltac peel20 l tac := do 20 (destruct l as [|? l]; [solve [tac] |]).

Lemma header_prefix (hdr payload : list Z) :
  length hdr = 20%nat ->
  fromfile_int32_5 (hdr ++ payload) = (map to_int32 (words32 hdr), payload).
Proof.
  intros H. unfold fromfile_int32_5.
  assert (E1 : firstn 20 (hdr ++ payload) = hdr)
    by exact (f_equal fst (split_at_app hdr payload 20 H)).
  assert (E2 : skipn 20 (hdr ++ payload) = payload)
    by exact (f_equal snd (split_at_app hdr payload 20 H)).
  now rewrite E1, E2.
Qed.

Lemma header_unpacks (hdr : list Z) :
  length hdr = 20%nat ->
  exists h, unpack_header (map to_int32 (words32 hdr)) = inr h.
Proof.
  intros H. peel20 hdr ltac:(cbn in H; lia). destruct hdr; [|cbn in H; lia].
  eexists. reflexivity.
Qed.

Lemma load_after_header (model : module) (hdr payload : list Z) :
  length hdr = 20%nat ->
  load_darknet_weights model (hdr ++ payload) =
  let weights := fromfile_float32 payload in
  if negb (Nat.eqb (darknet_numel model) (length weights))
  then (model, inl UnmatchingWeights)
  else
    let '(cs, r) := load_children (named_children model) weights in
    (with_children model cs, let* w := r in inr (Nat.eqb (length w) 0)).
Proof.
  intros H. unfold load_darknet_weights. rewrite (header_prefix _ _ H).
  destruct (header_unpacks hdr H) as [h Eh]. now rewrite Eh.
Qed.

Lemma load_conv_norm_err (ws : list Z) (l : conv_layer) :
  _load_conv_norm ws l <> inl UnmatchingWeights.
Proof.
  unfold _load_conv_norm, view_as, view_as_vec. destruct (norm l); [|discriminate].
  cbn. repeat match goal with
              | |- context [if ?b then _ else _] => destruct b
              end; cbn; discriminate.
Qed.

Lemma load_conv_err (ws : list Z) (l : conv_layer) :
  _load_conv ws l <> inl UnmatchingWeights.
Proof.
  unfold _load_conv, view_as. destruct (conv_bias (conv l)); [|discriminate].
  cbn. repeat match goal with
              | |- context [if ?b then _ else _] => destruct b
              end; cbn; discriminate.
Qed.

Lemma load_children_err (cs : list module) (ws : list Z) :
  snd (load_children cs ws) <> inl UnmatchingWeights.
Proof.
  revert ws. induction cs as [|c cs IH]; intros ws; [discriminate|].
  destruct c as [l | bn | ps cs0]; cbn [load_children].
  - destruct (if batch_norm l then _load_conv_norm ws l else _load_conv ws l)
      as [e | [l' ws']] eqn:E.
    + cbn. intros He. injection He as ->. destruct (batch_norm l).
      * exact (load_conv_norm_err ws l E).
      * exact (load_conv_err ws l E).
    + specialize (IH ws'). destruct (load_children cs ws'). exact IH.
  - specialize (IH ws). destruct (load_children cs ws). exact IH.
  - specialize (IH ws). destruct (load_children cs ws). exact IH.
Qed.

(** ** C2: the count check *)

(** C2. After a complete header, [load_darknet_weights] raises the
    "Unmatching number of weights" error exactly when [darknet_numel model]
    differs from the number of float32 values in the payload; it then
    returns the model untouched.  When they are equal the loop runs. *)
Theorem load_count_check (model : module) (hdr payload : list Z) :
  length hdr = 20%nat ->
  (snd (load_darknet_weights model (hdr ++ payload)) = inl UnmatchingWeights
   <-> darknet_numel model <> length (fromfile_float32 payload)) /\
  (darknet_numel model <> length (fromfile_float32 payload) ->
   load_darknet_weights model (hdr ++ payload) =
   (model, inl UnmatchingWeights)) /\
  (darknet_numel model = length (fromfile_float32 payload) ->
   load_darknet_weights model (hdr ++ payload) =
   let '(cs, r) :=
     load_children (named_children model) (fromfile_float32 payload) in
   (with_children model cs, let* w := r in inr (Nat.eqb (length w) 0))).
Proof.
  intros H. rewrite (load_after_header _ _ _ H). cbv zeta.
  destruct (Nat.eqb (darknet_numel model) (length (fromfile_float32 payload)))
    eqn:E; cbn [negb].
  - apply Nat.eqb_eq in E. split; [|split; [intros N; contradiction|auto]].
    split; [|intros N; contradiction].
    pose proof (load_children_err (named_children model)
                  (fromfile_float32 payload)) as Err.
    destruct (load_children (named_children model) (fromfile_float32 payload))
      as [cs [e | w]]; cbn [snd bind] in *; intros He.
    + exfalso. apply Err. injection He as ->. reflexivity.
    + discriminate.
  - apply Nat.eqb_neq in E. repeat split; auto; intros; contradiction.
Qed.

(** The spec's example: 19 floats for a 20-element model. *)
Lemma load_count_check_witness :
  load_darknet_weights ex_model (bytes_of_words ex_header ++
                                 bytes_of_words (blk 1 19)) =
  (ex_model, inl UnmatchingWeights).
Proof.
  apply (proj1 (proj2 (load_count_check ex_model (bytes_of_words ex_header)
                                         (bytes_of_words (blk 1 19)) eq_refl))).
  apply Nat.eqb_neq. vm_compute. reflexivity.
Defined.

(** ** C5: the success flag *)

(** C5. When the count check passes and the loop gets through every child
    with [rest] left over, [load_darknet_weights] returns (it raises
    nothing) [True] exactly when [rest] is empty, [False] otherwise. *)
Theorem load_success_iff_drained
    (model : module) (hdr payload : list Z) (cs : list module) (rest : list Z) :
  length hdr = 20%nat ->
  darknet_numel model = length (fromfile_float32 payload) ->
  load_children (named_children model) (fromfile_float32 payload) =
    (cs, inr rest) ->
  load_darknet_weights model (hdr ++ payload) =
    (with_children model cs, inr (Nat.eqb (length rest) 0)) /\
  (snd (load_darknet_weights model (hdr ++ payload)) = inr true <-> rest = []).
Proof.
  intros H Hn Hl. rewrite (load_after_header _ _ _ H). cbv zeta.
  rewrite Hn, Nat.eqb_refl, Hl. cbn [negb bind snd]. split; [reflexivity|].
  destruct rest; cbn; split; congruence.
Qed.

(** A parameter outside the [ConvLayer]s is counted but never read: three
    values stay in the array and the result is [False]. *)
Lemma load_success_iff_drained_witness :
  load_darknet_weights ex_extra (bytes_of_words ex_header ++
                                 bytes_of_words (blk 1 23)) =
  (with_children ex_extra
     (fst (load_children (named_children ex_extra) (blk 1 23))),
   inr false) /\
  (snd (load_darknet_weights ex_extra (bytes_of_words ex_header ++
                                       bytes_of_words (blk 1 23)))
   = inr true <-> blk 21 3 = []).
Proof.
  apply (load_success_iff_drained ex_extra (bytes_of_words ex_header)
           (bytes_of_words (blk 1 23))
           (fst (load_children (named_children ex_extra) (blk 1 23)))
           (blk 21 3)); vm_compute; reflexivity.
Defined.

(** ** C4: the expected count *)

Lemma fold_add_sum (l : list batchnorm2d) (n : nat) :
  fold_left (fun k bn => (k + length (running_mean bn)
                            + length (running_var bn))%nat) l n =
  (n + sum_nat (map (fun bn => length (running_mean bn)
                               + length (running_var bn)) l))%nat.
Proof.
  unfold sum_nat. revert n.
  induction l as [|bn l IH]; intros n; cbn; [lia|].
  rewrite IH. lia.
Qed.

Lemma darknet_numel_sums (m : module) :
  darknet_numel m =
  (sum_nat (map (fun p => numel (value p))
                (filter requires_grad (parameters m)))
   + sum_nat (map (fun bn => length (running_mean bn)
                             + length (running_var bn)) (batchnorms m)))%nat.
Proof. unfold darknet_numel. apply fold_add_sum. Qed.

(** C4. [darknet_numel model] is the number of elements of every parameter
    of [model.parameters()] (all depths) with [requires_grad], plus, for
    every [BatchNorm2d] among [model.modules()] (all depths, including the
    [norm] of each [ConvLayer]), the lengths of its running mean and
    running variance. *)
Theorem darknet_numel_total (m : module) :
  darknet_numel m =
  (sum_nat (map (fun p => numel (value p))
                (filter requires_grad (parameters m)))
   + sum_nat (map (fun bn => length (running_mean bn)
                             + length (running_var bn)) (batchnorms m)))%nat.
Proof. exact (darknet_numel_sums m). Qed.

(** ** C6: the header *)

(** C6. The header is the first 20 bytes read as five signed little-endian
    32-bit integers, with the stream left just after them and no check of
    their values; with fewer than 20 bytes the unpacking fails, and
    [load_darknet_weights] fails there with the model untouched. *)
Theorem read_header_spec (f : list Z) :
  ((length f < 20)%nat ->
   read_header f = inl TruncatedHeader /\
   forall model, load_darknet_weights model f = (model, inl TruncatedHeader)) /\
  ((20 <= length f)%nat ->
   read_header f =
   inr ((int32_at f 0, int32_at f 4, int32_at f 8, int32_at f 12,
         int32_at f 16), skipn 20 f)).
Proof.
  split; intros H.
  - peel20 f ltac:(split; [reflexivity | intros; reflexivity]).
    cbn in H. lia.
  - peel20 f ltac:(cbn in H; lia). reflexivity.
Qed.

Lemma read_header_spec_witness :
  read_header [1; 0; 0; 0] = inl TruncatedHeader /\
  read_header (bytes_of_words ex_header ++ [7]) =
  inr ((0, 2, 5, 32013312, 0), [7]).
Proof.
  split.
  - apply (proj1 (read_header_spec [1; 0; 0; 0])). cbn. lia.
  - rewrite (proj2 (read_header_spec (bytes_of_words ex_header ++ [7]))).
    + vm_compute. reflexivity.
    + cbn. lia.
Defined.

(** ** C8: the header does not matter *)

(** C8. Two files with the same payload and any two 20-byte headers load
    the same way: same final model, same outcome. *)
Theorem load_header_irrelevant (model : module) (h1 h2 payload : list Z) :
  length h1 = 20%nat -> length h2 = 20%nat ->
  load_darknet_weights model (h1 ++ payload) =
  load_darknet_weights model (h2 ++ payload).
Proof.
  intros H1 H2. now rewrite (load_after_header _ _ _ H1),
                             (load_after_header _ _ _ H2).
Qed.

Lemma load_header_irrelevant_witness :
  load_darknet_weights ex_model (bytes_of_words ex_header ++
                                 bytes_of_words (blk 1 20)) =
  load_darknet_weights ex_model (bytes_of_words [-1; 7; 7; 0; 123] ++
                                 bytes_of_words (blk 1 20)).
Proof.
  apply load_header_irrelevant; reflexivity.
Defined.

(** ** C10: only the direct children are visited *)

Lemma load_children_no_conv (cs : list module) (ws : list Z) :
  forallb (fun c => negb (is_conv_layer c)) cs = true ->
  load_children cs ws = (cs, inr ws).
Proof.
  induction cs as [|c cs IH]; intros H; [reflexivity|].
  cbn [forallb] in H. apply andb_prop in H as [Hc Hcs].
  rewrite load_children_other by (now destruct (is_conv_layer c)).
  now rewrite (IH Hcs).
Qed.

Lemma with_named_children (m : module) : with_children m (named_children m) = m.
Proof. now destruct m. Qed.

Lemma load_children_frame (cs : list module) (ws : list Z) :
  length (fst (load_children cs ws)) = length cs /\
  (forall k, is_conv_layer (nth k cs ex_act) = false ->
   nth k (fst (load_children cs ws)) ex_act = nth k cs ex_act).
Proof.
  revert ws. induction cs as [|c cs IH]; intros ws; [split; reflexivity|].
  destruct (is_conv_layer c) eqn:Ec.
  - destruct c as [l | bn | ps cs0]; try discriminate Ec.
    cbn [load_children].
    destruct (if batch_norm l then _load_conv_norm ws l else _load_conv ws l)
      as [e | [l' ws']]; [split; reflexivity|].
    destruct (IH ws') as [IHl IHk].
    destruct (load_children cs ws') as [cs'' r] eqn:E. cbn [fst] in *.
    split; [cbn; now rewrite IHl|].
    intros [|k] Hk; [discriminate Hk|]. exact (IHk k Hk).
  - rewrite (load_children_other c cs ws Ec).
    destruct (IH ws) as [IHl IHk].
    destruct (load_children cs ws) as [cs' r]. cbn [fst] in *.
    split; [cbn; now rewrite IHl|].
    intros [|k] Hk; [reflexivity|]. exact (IHk k Hk).
Qed.

Lemma load_model_shape (model : module) (f : list Z) :
  with_children model (named_children (fst (load_darknet_weights model f)))
    = fst (load_darknet_weights model f) /\
  length (named_children (fst (load_darknet_weights model f)))
    = length (named_children model) /\
  (forall k, is_conv_layer (nth k (named_children model) ex_act) = false ->
   nth k (named_children (fst (load_darknet_weights model f))) ex_act
     = nth k (named_children model) ex_act).
Proof.
  unfold load_darknet_weights.
  destruct (fromfile_int32_5 f) as [header rest].
  destruct (unpack_header header) as [e | h];
    [cbn [fst]; rewrite with_named_children; repeat split; reflexivity|].
  destruct (negb _);
    [cbn [fst]; rewrite with_named_children; repeat split; reflexivity|].
  destruct (load_children_frame (named_children model) (fromfile_float32 rest))
    as [Hl Hk].
  destruct (load_children (named_children model) (fromfile_float32 rest))
    as [cs r]. cbn [fst] in *.
  destruct model as [l | bn | ps cs0]; cbn [named_children with_children] in *.
  - destruct cs; [|discriminate Hl]. repeat split; reflexivity.
  - destruct cs; [|discriminate Hl]. repeat split; reflexivity.
  - repeat split; assumption.
Qed.

(** C10 (amended). The loop visits only [model.named_children()].  For
    every model and file, the loaded model is the same container with as
    many direct children, and every direct child that is not a [ConvLayer]
    (with any [ConvLayer] nested inside it) comes back unchanged.  When no
    direct child is a [ConvLayer], the model comes back untouched and the
    outcome depends only on the count, which [darknet_numel] takes over
    every depth: a mismatch raises; a match returns whether the payload was
    empty, so [False] when [darknet_numel] is positive and [True] when it
    is 0 (only the empty payload then passes). *)
Theorem nested_conv_layers_untouched (model : module) (f : list Z) :
  let model' := fst (load_darknet_weights model f) in
  with_children model (named_children model') = model' /\
  length (named_children model') = length (named_children model) /\
  (forall k, is_conv_layer (nth k (named_children model) ex_act) = false ->
   nth k (named_children model') ex_act = nth k (named_children model) ex_act) /\
  (forall hdr payload, f = hdr ++ payload -> length hdr = 20%nat ->
   forallb (fun c => negb (is_conv_layer c)) (named_children model) = true ->
   load_darknet_weights model f =
   (model,
    if Nat.eqb (darknet_numel model) (length (fromfile_float32 payload))
    then inr (Nat.eqb (length (fromfile_float32 payload)) 0)
    else inl UnmatchingWeights)).
Proof.
  cbv zeta. destruct (load_model_shape model f) as [Hw [Hl Hk]].
  split; [exact Hw|]. split; [exact Hl|]. split; [exact Hk|].
  intros hdr payload -> H Hc. rewrite (load_after_header _ _ _ H). cbv zeta.
  destruct (Nat.eqb _ _); cbn [negb]; [|reflexivity].
  rewrite (load_children_no_conv _ _ Hc), with_named_children. reflexivity.
Qed.

(** A direct plain layer next to the same layer one level down: the direct
    one takes its 20 values, the nested one is left as it was, and the 20
    values left over make the result [False]; behind an extra level alone,
    20 values pass the count check, nothing is written, and the result is
    [False]. *)
Lemma nested_conv_layers_untouched_witness :
  nth 1 (named_children (fst (load_darknet_weights ex_mixed
          (bytes_of_words ex_header ++ bytes_of_words (blk 1 40))))) ex_act
    = Module [] [ConvLayer ex_plain] /\
  load_darknet_weights ex_nested (bytes_of_words ex_header ++
                                  bytes_of_words (blk 1 20)) =
  (ex_nested, inr false).
Proof.
  split.
  - destruct (nested_conv_layers_untouched ex_mixed
                (bytes_of_words ex_header ++ bytes_of_words (blk 1 40)))
      as [_ [_ [Hk _]]].
    exact (Hk 1%nat eq_refl).
  - destruct (nested_conv_layers_untouched ex_nested
                (bytes_of_words ex_header ++ bytes_of_words (blk 1 20)))
      as [_ [_ [_ H]]].
    rewrite (H (bytes_of_words ex_header) (bytes_of_words (blk 1 20))
               eq_refl eq_refl eq_refl).
    vm_compute. reflexivity.
Defined.

(** C10, as stated, fails for a model whose count is 0: a plain layer one
    level down with every parameter frozen.  Only the empty payload passes
    the count check, and then the result is [True]; no file gives [False]. *)
Lemma nested_conv_layers_untouched_counterexample :
  darknet_numel ex_frozen = 0%nat /\
  load_darknet_weights ex_frozen (bytes_of_words ex_header) =
    (ex_frozen, inr true) /\
  (forall payload,
   snd (load_darknet_weights ex_frozen (bytes_of_words ex_header ++ payload))
     <> inr false).
Proof.
  assert (N : darknet_numel ex_frozen = 0%nat) by (vm_compute; reflexivity).
  split; [exact N|]. split; [vm_compute; reflexivity|].
  intros payload.
  rewrite (load_after_header _ _ _ (eq_refl : length (bytes_of_words ex_header) = 20%nat)).
  cbv zeta. rewrite N.
  destruct (Nat.eqb 0 (length (fromfile_float32 payload))) eqn:E;
    cbn [negb snd]; [|discriminate].
  apply Nat.eqb_eq in E.
  rewrite (load_children_no_conv (named_children ex_frozen) _ eq_refl).
  cbn [snd bind]. rewrite <- E. discriminate.
Qed.

(** ** C9: the round trip *)

Lemma le32_bytes (z : Z) :
  0 <= z < 2 ^ 32 ->
  le32 (Z.land z 255) (Z.land (Z.shiftr z 8) 255)
       (Z.land (Z.shiftr z 16) 255) (Z.land (Z.shiftr z 24) 255) = z.
Proof.
  intros Hz. unfold le32. change 255 with (Z.ones 8).
  rewrite !Z.land_ones, !Z.shiftr_div_pow2 by lia.
  assert (E16 : z / 2 ^ 16 = z / 2 ^ 8 / 2 ^ 8)
    by (rewrite Z.div_div by lia; reflexivity).
  assert (E24 : z / 2 ^ 24 = z / 2 ^ 16 / 2 ^ 8)
    by (rewrite Z.div_div by lia; reflexivity).
  assert (B : 0 <= z / 2 ^ 24 < 2 ^ 8).
  { split; [apply Z.div_pos; lia|]. apply Z.div_lt_upper_bound; lia. }
  rewrite (Z.mod_small (z / 2 ^ 24)) by exact B.
  pose proof (Z.div_mod z (2 ^ 8) ltac:(lia)) as D0.
  pose proof (Z.div_mod (z / 2 ^ 8) (2 ^ 8) ltac:(lia)) as D1.
  pose proof (Z.div_mod (z / 2 ^ 16) (2 ^ 8) ltac:(lia)) as D2.
  rewrite <- E16 in D1. rewrite <- E24 in D2.
  change (2 ^ 8) with 256 in *. change (2 ^ 16) with 65536 in *.
  change (2 ^ 24) with 16777216 in *. lia.
Qed.

Lemma words32_bytes (zs : list Z) :
  Forall (fun z => 0 <= z < 2 ^ 32) zs -> words32 (bytes_of_words zs) = zs.
Proof.
  induction 1 as [|z zs Hz _ IH]; [reflexivity|].
  cbn [bytes_of_words flat_map bytes_of_word app words32].
  rewrite (le32_bytes z Hz). f_equal. exact IH.
Qed.

Lemma length_bytes_of_words (zs : list Z) :
  length (bytes_of_words zs) = (4 * length zs)%nat.
Proof.
  induction zs as [|z zs IH]; [reflexivity|].
  cbn [bytes_of_words flat_map bytes_of_word app length].
  fold (bytes_of_words zs). rewrite IH. lia.
Qed.

Lemma sum_nat_app (a b : list nat) :
  sum_nat (a ++ b) = (sum_nat a + sum_nat b)%nat.
Proof. unfold sum_nat. induction a as [|x a IH]; cbn; lia. Qed.

Lemma darknet_numel_cons (ps : list param) (c : module) (cs : list module) :
  darknet_numel (Module ps (c :: cs)) =
  (darknet_numel c + darknet_numel (Module ps cs))%nat.
Proof.
  rewrite !darknet_numel_sums. cbn [parameters batchnorms flat_map].
  rewrite !filter_app, !map_app, !sum_nat_app. lia.
Qed.

Lemma overwritten_same (p : param) : overwritten p (data (value p)) = p.
Proof. now destruct p as [[sh d] rg]. Qed.

Lemma layer_payload_range (l : conv_layer) :
  darknet_layer_ok l ->
  Forall (fun z => 0 <= z < 2 ^ 32) (darknet_layer_payload l).
Proof.
  intros ([_ Hw] & _ & Hl). unfold darknet_layer_payload.
  destruct (batch_norm l).
  - destruct Hl as (_ & bn & Hn & [_ Hbw] & [_ Hbb] & _ & _ & Hm & Hv).
    rewrite Hn. rewrite !Forall_app. tauto.
  - destruct Hl as (_ & b & Hb & [_ Hwb] & _). rewrite Hb.
    rewrite Forall_app. tauto.
Qed.

Lemma layer_numel (l : conv_layer) :
  darknet_layer_ok l ->
  darknet_numel (ConvLayer l) = length (darknet_layer_payload l).
Proof.
  intros ([Lw _] & Rw & Hl). rewrite darknet_numel_sums.
  cbn [parameters batchnorms]. unfold conv_layer_params, darknet_layer_payload.
  destruct (batch_norm l).
  - destruct Hl as (Hcb & bn & Hn & [Lbw _] & [Lbb _] & Rbw & Rbb & _).
    rewrite Hcb, Hn. cbn [app filter]. rewrite Rw, Rbw, Rbb.
    cbn -[numel]. rewrite !length_app. unfold sum_nat. cbn -[numel]. lia.
  - destruct Hl as (Hn & b & Hb & [Lb _] & Rb). rewrite Hb, Hn.
    cbn [app filter]. rewrite Rw, Rb. cbn -[numel].
    rewrite !length_app. unfold sum_nat. cbn -[numel]. lia.
Qed.

Lemma layer_reload (l : conv_layer) (ws : list Z) :
  darknet_layer_ok l ->
  (if batch_norm l then _load_conv_norm (darknet_layer_payload l ++ ws) l
   else _load_conv (darknet_layer_payload l ++ ws) l) = inr (l, ws).
Proof.
  intros ([Lw _] & _ & Hl). unfold darknet_layer_payload.
  destruct l as [bnf [cw cb] nm]; cbn [batch_norm conv norm conv_weight
                                       conv_bias] in *.
  destruct bnf.
  - destruct Hl as (-> & bn & -> & [Lbw _] & [Lbb _] & _).
    rewrite <- !app_assoc.
    rewrite (load_conv_norm_ok (mkConvLayer true (mkConv cw None) (Some bn))
               bn _ _ _ _ _ ws eq_refl Lbb Lbw eq_refl eq_refl Lw).
    cbn [conv conv_weight conv_bias batch_norm].
    rewrite !overwritten_same. now destruct bn.
  - destruct Hl as (-> & b & -> & [Lb _] & _).
    rewrite <- !app_assoc.
    rewrite (load_conv_ok (mkConvLayer false (mkConv cw (Some b)) None)
               b _ _ ws eq_refl Lb Lw).
    cbn [conv conv_weight batch_norm norm].
    now rewrite !overwritten_same.
Qed.

Lemma reload_children (cs : list module) (rest : list Z) :
  Forall darknet_child_ok cs ->
  load_children cs (flat_map child_payload cs ++ rest) = (cs, inr rest).
Proof.
  induction 1 as [|c cs Hc _ IH]; [reflexivity|].
  cbn [flat_map]. rewrite <- app_assoc.
  destruct c as [l | bn | ps cs0]; cbn [child_payload app load_children].
  - rewrite (layer_reload l _ Hc), IH. reflexivity.
  - rewrite IH. reflexivity.
  - rewrite IH. reflexivity.
Qed.

Lemma children_numel (ps : list param) (cs : list module) :
  darknet_numel (Module ps []) = 0%nat ->
  Forall darknet_child_ok cs ->
  darknet_numel (Module ps cs) = length (flat_map child_payload cs).
Proof.
  intros H0. induction 1 as [|c cs Hc _ IH]; [exact H0|].
  rewrite darknet_numel_cons, IH. cbn [flat_map]. rewrite length_app.
  f_equal. destruct c as [l | bn | ps' cs0]; cbn [child_payload];
    [apply layer_numel | |]; exact Hc.
Qed.

Lemma children_range (cs : list module) :
  Forall darknet_child_ok cs ->
  Forall (fun z => 0 <= z < 2 ^ 32) (flat_map child_payload cs).
Proof.
  induction 1 as [|c cs Hc _ IH]; [constructor|].
  cbn [flat_map]. apply Forall_app. split; [|exact IH].
  destruct c; cbn [child_payload]; [apply layer_payload_range; exact Hc|..];
    constructor.
Qed.

(** C9, as stated, fails: a parameter outside the [ConvLayer]s is counted
    by [darknet_numel] but never written, so the written file does not
    even pass the count check. *)
Lemma darknet_roundtrip_counterexample :
  load_darknet_weights ex_extra (darknet_file ex_header ex_extra) =
    (ex_extra, inl UnmatchingWeights) /\
  load_darknet_weights ex_extra (darknet_file ex_header ex_extra) <>
    (ex_extra, inr true).
Proof.
  assert (E : load_darknet_weights ex_extra (darknet_file ex_header ex_extra)
              = (ex_extra, inl UnmatchingWeights)) by (vm_compute; reflexivity).
  split; [exact E|]. rewrite E. discriminate.
Qed.

(** C9 (amended). For a model Darknet describes completely (a container
    whose parameters and running statistics all belong to direct
    [ConvLayer] children, normalized ones with their [norm] and no
    convolution bias, plain ones with a bias and no [norm], every
    parameter requiring gradients), writing a 20-byte header and the
    layers' tensors in the format's order and loading that file gives
    back the very same model, every float32 pattern unchanged, and
    [True]. *)
Theorem darknet_roundtrip (model : module) (header : list Z) :
  darknet_model_ok model -> length header = 5%nat ->
  load_darknet_weights model (darknet_file header model) = (model, inr true).
Proof.
  intros (ps & cs & -> & H0 & Hcs') Hh.
  unfold darknet_file, darknet_payload. cbn [named_children].
  change (flat_map _ cs) with (flat_map child_payload cs).
  rewrite load_after_header by (rewrite length_bytes_of_words; lia).
  cbv zeta. unfold fromfile_float32.
  rewrite (words32_bytes _ (children_range cs Hcs')).
  rewrite <- (children_numel ps cs H0 Hcs'), Nat.eqb_refl. cbn [negb].
  pose proof (reload_children cs [] Hcs') as W. rewrite app_nil_r in W.
  cbn [named_children]. rewrite W. reflexivity.
Qed.

Lemma darknet_roundtrip_witness :
  load_darknet_weights ex_full (darknet_file ex_header ex_full) =
  (ex_full, inr true).
Proof.
  assert (R : forall n, Forall (fun z => 0 <= z < 2 ^ 32) (repeat 0 n)).
  { intros n. apply Forall_forall. intros z Hz. apply repeat_spec in Hz. lia. }
  apply darknet_roundtrip; [|reflexivity].
  exists [], [ConvLayer ex_plain; ex_act; ConvLayer ex_norm].
  split; [reflexivity|]. split; [reflexivity|].
  repeat apply Forall_cons; try apply Forall_nil.
  - split; [split; [reflexivity | apply R]|]. split; [reflexivity|].
    split; [reflexivity|]. exists (grad_param [2]%nat).
    split; [reflexivity|]. split; [split; [reflexivity | apply R]|reflexivity].
  - reflexivity.
  - split; [split; [reflexivity | apply R]|]. split; [reflexivity|].
    split; [reflexivity|]. exists ex_bn. split; [reflexivity|].
    split; [split; [reflexivity | apply R]|].
    split; [split; [reflexivity | apply R]|].
    split; [reflexivity|]. split; [reflexivity|].
    split; [apply R|].
    apply Forall_forall. intros z Hz. apply repeat_spec in Hz. lia.
Defined.

(** ** Per-layer consumption *)

Lemma view_as_firstn (n : nat) (ws : list Z) (t t' : tensor) :
  view_as (firstn n ws) t = inr t' -> n = numel t -> (n <= length ws)%nat.
Proof.
  unfold view_as. rewrite length_firstn. intros H ->.
  destruct (Nat.eqb_spec (Nat.min (numel t) (length ws)) (numel t)); [lia|].
  discriminate.
Qed.

Lemma view_as_vec_firstn (n : nat) (ws v v' : list Z) :
  view_as_vec (firstn n ws) v = inr v' -> n = length v -> (n <= length ws)%nat.
Proof.
  unfold view_as_vec. rewrite length_firstn. intros H ->.
  destruct (Nat.eqb_spec (Nat.min (length v) (length ws)) (length v)); [lia|].
  discriminate.
Qed.

Ltac split_views H :=
  repeat match type of H with
  | context [view_as ?s ?t] =>
      let E := fresh "E" in
      destruct (view_as s t) eqn:E; cbn [bind] in H; [discriminate H|]
  | context [view_as_vec ?s ?v] =>
      let E := fresh "E" in
      destruct (view_as_vec s v) eqn:E; cbn [bind] in H; [discriminate H|]
  end.

Lemma load_conv_norm_inv (ws : list Z) (l l' : conv_layer) (r : list Z) :
  _load_conv_norm ws l = inr (l', r) ->
  exists bn, norm l = Some bn /\ (norm_layer_numel l bn <= length ws)%nat /\
             r = skipn (norm_layer_numel l bn) ws.
Proof.
  intros H. unfold _load_conv_norm in H. destruct (norm l) as [bn|];
    [|discriminate]. exists bn. split; [reflexivity|].
  unfold split_at in H. split_views H. injection H as _ <-.
  apply view_as_firstn in E; [|reflexivity].
  apply view_as_firstn in E0; [|reflexivity].
  apply view_as_vec_firstn in E1; [|reflexivity].
  apply view_as_vec_firstn in E2; [|reflexivity].
  apply view_as_firstn in E3; [|reflexivity].
  rewrite !length_skipn in *. rewrite !skipn_skipn.
  unfold norm_layer_numel. split; [lia|]. f_equal. lia.
Qed.

Lemma load_conv_inv (ws : list Z) (l l' : conv_layer) (r : list Z) :
  _load_conv ws l = inr (l', r) ->
  exists b, conv_bias (conv l) = Some b /\
            (conv_layer_numel l b <= length ws)%nat /\
            r = skipn (conv_layer_numel l b) ws.
Proof.
  intros H. unfold _load_conv in H. destruct (conv_bias (conv l)) as [b|];
    [|discriminate]. exists b. split; [reflexivity|].
  unfold split_at in H. split_views H. injection H as _ <-.
  apply view_as_firstn in E; [|reflexivity].
  apply view_as_firstn in E0; [|reflexivity].
  rewrite !length_skipn in *. rewrite !skipn_skipn.
  unfold conv_layer_numel. split; [lia|]. f_equal. lia.
Qed.

Lemma load_conv_norm_view_error (ws : list Z) (l : conv_layer) (e : error) :
  norm l <> None -> _load_conv_norm ws l = inl e -> e = ViewError.
Proof.
  unfold _load_conv_norm, view_as, view_as_vec. intros Hn.
  destruct (norm l); [|contradiction]. cbn.
  repeat match goal with
         | |- context [if ?b then _ else _] => destruct b
         end; cbn; congruence.
Qed.

Lemma load_conv_view_error (ws : list Z) (l : conv_layer) (e : error) :
  conv_bias (conv l) <> None -> _load_conv ws l = inl e -> e = ViewError.
Proof.
  unfold _load_conv, view_as. intros Hb.
  destruct (conv_bias (conv l)); [|contradiction]. cbn.
  repeat match goal with
         | |- context [if ?b then _ else _] => destruct b
         end; cbn; congruence.
Qed.

Lemma load_conv_norm_enough_aux (ws : list Z) (l : conv_layer) (bn : batchnorm2d) :
  norm l = Some bn ->
  ((norm_layer_numel l bn <= length ws)%nat ->
   exists l', _load_conv_norm ws l = inr (l', skipn (norm_layer_numel l bn) ws)) /\
  ((length ws < norm_layer_numel l bn)%nat ->
   _load_conv_norm ws l = inl ViewError).
Proof.
  intros Hn. split; intros Hlen.
  - unfold norm_layer_numel in *. unfold _load_conv_norm. rewrite Hn.
    unfold split_at.
    rewrite (view_as_ok (firstn _ ws)) by (apply firstn_length_le; lia).
    cbn [bind].
    rewrite (view_as_ok (firstn _ (skipn _ ws)))
      by (apply firstn_length_le; rewrite length_skipn; lia).
    cbn [bind].
    rewrite (view_as_vec_ok (firstn _ (skipn _ (skipn _ ws))))
      by (apply firstn_length_le; rewrite !length_skipn; lia).
    cbn [bind].
    rewrite (view_as_vec_ok (firstn _ (skipn _ (skipn _ (skipn _ ws)))))
      by (apply firstn_length_le; rewrite !length_skipn; lia).
    cbn [bind].
    rewrite (view_as_ok (firstn _ (skipn _ (skipn _ (skipn _ (skipn _ ws))))))
      by (apply firstn_length_le; rewrite !length_skipn; lia).
    cbn [bind]. eexists. rewrite !skipn_skipn. do 3 f_equal. lia.
  - destruct (_load_conv_norm ws l) as [e | [l' r]] eqn:E.
    + f_equal. apply (load_conv_norm_view_error ws l); [congruence | exact E].
    + apply load_conv_norm_inv in E as (bn' & Hn' & Hle & _).
      rewrite Hn in Hn'. injection Hn' as <-. lia.
Qed.

(** X1. [_load_conv_norm] on a layer with its [norm] succeeds exactly when
    the array holds at least the layer's five element counts together; it
    then hands back the array without that prefix.  With fewer elements it
    fails with the [view_as] error. *)
Theorem load_conv_norm_enough (ws : list Z) (l : conv_layer) (bn : batchnorm2d) :
  norm l = Some bn ->
  ((norm_layer_numel l bn <= length ws)%nat ->
   exists l', _load_conv_norm ws l = inr (l', skipn (norm_layer_numel l bn) ws)) /\
  ((length ws < norm_layer_numel l bn)%nat ->
   _load_conv_norm ws l = inl ViewError).
Proof. exact (load_conv_norm_enough_aux ws l bn). Qed.

Lemma load_conv_norm_enough_witness :
  (exists l', _load_conv_norm (blk 1 53) ex_norm =
              inr (l', skipn (norm_layer_numel ex_norm ex_bn) (blk 1 53))) /\
  _load_conv_norm (blk 1 51) ex_norm = inl ViewError.
Proof.
  split.
  - apply (load_conv_norm_enough (blk 1 53) ex_norm ex_bn eq_refl).
    vm_compute. lia.
  - apply (load_conv_norm_enough (blk 1 51) ex_norm ex_bn eq_refl).
    vm_compute. lia.
Defined.

Lemma load_conv_enough_aux (ws : list Z) (l : conv_layer) (b : param) :
  conv_bias (conv l) = Some b ->
  ((conv_layer_numel l b <= length ws)%nat ->
   exists l', _load_conv ws l = inr (l', skipn (conv_layer_numel l b) ws)) /\
  ((length ws < conv_layer_numel l b)%nat -> _load_conv ws l = inl ViewError).
Proof.
  intros Hb. split; intros Hlen.
  - unfold conv_layer_numel in *. unfold _load_conv. rewrite Hb.
    unfold split_at.
    rewrite (view_as_ok (firstn _ ws)) by (apply firstn_length_le; lia).
    cbn [bind].
    rewrite (view_as_ok (firstn _ (skipn _ ws)))
      by (apply firstn_length_le; rewrite length_skipn; lia).
    cbn [bind]. eexists. rewrite !skipn_skipn. do 3 f_equal. lia.
  - destruct (_load_conv ws l) as [e | [l' r]] eqn:E.
    + f_equal. apply (load_conv_view_error ws l); [congruence | exact E].
    + apply load_conv_inv in E as (b' & Hb' & Hle & _).
      rewrite Hb in Hb'. injection Hb' as <-. lia.
Qed.

(** X2. [_load_conv] on a layer with a convolution bias succeeds exactly
    when the array holds at least the bias and weight counts together; it
    then hands back the array without that prefix.  With fewer elements it
    fails with the [view_as] error. *)
Theorem load_conv_enough (ws : list Z) (l : conv_layer) (b : param) :
  conv_bias (conv l) = Some b ->
  ((conv_layer_numel l b <= length ws)%nat ->
   exists l', _load_conv ws l = inr (l', skipn (conv_layer_numel l b) ws)) /\
  ((length ws < conv_layer_numel l b)%nat -> _load_conv ws l = inl ViewError).
Proof. exact (load_conv_enough_aux ws l b). Qed.

Lemma load_conv_enough_witness :
  (exists l', _load_conv (blk 1 20) ex_plain =
              inr (l', skipn (conv_layer_numel ex_plain (grad_param [2]%nat))
                             (blk 1 20))) /\
  _load_conv (blk 1 19) ex_plain = inl ViewError.
Proof.
  split.
  - apply (load_conv_enough (blk 1 20) ex_plain (grad_param [2]%nat) eq_refl).
    vm_compute. lia.
  - apply (load_conv_enough (blk 1 19) ex_plain (grad_param [2]%nat) eq_refl).
    vm_compute. lia.
Defined.

(** ** The loop over the children *)

Lemma layer_step (l : conv_layer) (ws : list Z) :
  loadable (ConvLayer l) = true ->
  ((consumed (ConvLayer l) <= length ws)%nat ->
   exists l', (if batch_norm l then _load_conv_norm ws l else _load_conv ws l)
              = inr (l', skipn (consumed (ConvLayer l)) ws)) /\
  ((length ws < consumed (ConvLayer l))%nat ->
   (if batch_norm l then _load_conv_norm ws l else _load_conv ws l)
   = inl ViewError).
Proof.
  cbn [loadable consumed]. destruct (batch_norm l).
  - destruct (norm l) as [bn|] eqn:Hn; [|discriminate]. intros _.
    exact (load_conv_norm_enough_aux ws l bn Hn).
  - destruct (conv_bias (conv l)) as [b|] eqn:Hb; [|discriminate]. intros _.
    exact (load_conv_enough_aux ws l b Hb).
Qed.

Lemma load_children_enough (cs : list module) (ws : list Z) :
  forallb loadable cs = true ->
  ((sum_nat (map consumed cs) <= length ws)%nat ->
   exists cs', load_children cs ws =
               (cs', inr (skipn (sum_nat (map consumed cs)) ws))) /\
  ((length ws < sum_nat (map consumed cs))%nat ->
   snd (load_children cs ws) = inl ViewError).
Proof.
  revert ws. induction cs as [|c cs IH]; intros ws Hl.
  - split; intros H; [exists []; reflexivity | cbn in H; lia].
  - cbn [forallb] in Hl. apply andb_prop in Hl as [Hc Hcs].
    cbn [map sum_nat fold_right]. fold (sum_nat (map consumed cs)).
    destruct c as [l | bn | ps cs0].
    + cbn [load_children]. destruct (layer_step l ws Hc) as [Ok Ko].
      split; intros H.
      * destruct (Ok ltac:(lia)) as [l' E]. rewrite E.
        destruct (IH (skipn (consumed (ConvLayer l)) ws) Hcs) as [Ok' _].
        rewrite length_skipn in Ok'. destruct (Ok' ltac:(lia)) as [cs' E'].
        rewrite E', skipn_skipn. eexists. do 3 f_equal. lia.
      * destruct (Nat.lt_ge_cases (length ws) (consumed (ConvLayer l))) as [Lt|Ge].
        -- rewrite (Ko Lt). reflexivity.
        -- destruct (Ok Ge) as [l' E]. rewrite E.
           destruct (IH (skipn (consumed (ConvLayer l)) ws) Hcs) as [_ Ko'].
           rewrite length_skipn in Ko'. specialize (Ko' ltac:(lia)).
           destruct (load_children cs _). exact Ko'.
    + rewrite load_children_other by reflexivity. cbn [consumed].
      destruct (IH ws Hcs) as [Ok Ko]. split; intros H.
      * destruct (Ok H) as [cs' E]. rewrite E. eexists. reflexivity.
      * specialize (Ko H). destruct (load_children cs ws). exact Ko.
    + rewrite load_children_other by reflexivity. cbn [consumed].
      destruct (IH ws Hcs) as [Ok Ko]. split; intros H.
      * destruct (Ok H) as [cs' E]. rewrite E. eexists. reflexivity.
      * specialize (Ko H). destruct (load_children cs ws). exact Ko.
Qed.

(** X3. When every direct [ConvLayer] child has what its branch reads (its
    [norm], or its bias) and the count check passes, the outcome is decided
    by what those children take: if it exceeds [darknet_numel model] the
    loop runs out and raises the [view_as] error, otherwise the result is
    [True] exactly when it equals [darknet_numel model]. *)
Theorem load_outcome_by_consumption (model : module) (hdr payload : list Z) :
  length hdr = 20%nat ->
  forallb loadable (named_children model) = true ->
  darknet_numel model = length (fromfile_float32 payload) ->
  snd (load_darknet_weights model (hdr ++ payload)) =
  if Nat.leb (sum_nat (map consumed (named_children model))) (darknet_numel model)
  then inr (Nat.eqb (sum_nat (map consumed (named_children model)))
                    (darknet_numel model))
  else inl ViewError.
Proof.
  intros H Hl Hn. rewrite (load_after_header _ _ _ H). cbv zeta.
  rewrite Hn, Nat.eqb_refl. cbn [negb].
  destruct (load_children_enough _ (fromfile_float32 payload) Hl) as [Ok Ko].
  destruct (Nat.leb_spec (sum_nat (map consumed (named_children model)))
                         (length (fromfile_float32 payload))) as [Le|Gt].
  - destruct (Ok Le) as [cs' E]. rewrite E. cbn [snd bind].
    rewrite length_skipn. f_equal.
    destruct (Nat.eqb_spec (sum_nat (map consumed (named_children model)))
                           (length (fromfile_float32 payload))) as [Eq|Ne].
    + apply Nat.eqb_eq. lia.
    + apply Nat.eqb_neq. lia.
  - specialize (Ko Gt).
    destruct (load_children _ _) as [cs' [e|w]]; cbn in Ko |- *;
      [congruence | discriminate].
Qed.

Lemma load_outcome_by_consumption_witness :
  snd (load_darknet_weights ex_extra (bytes_of_words ex_header ++
                                      bytes_of_words (blk 1 23))) = inr false.
Proof.
  rewrite (load_outcome_by_consumption ex_extra (bytes_of_words ex_header)
             (bytes_of_words (blk 1 23)) eq_refl eq_refl eq_refl).
  vm_compute. reflexivity.
Defined.

(** ** Loading twice *)

Lemma view_as_inv (s : list Z) (t t' : tensor) :
  view_as s t = inr t' -> length s = numel t /\ t' = mkTensor (shape t) s.
Proof.
  unfold view_as. destruct (Nat.eqb_spec (length s) (numel t)); [|discriminate].
  intros H. injection H as <-. auto.
Qed.

Lemma view_as_vec_inv (s v v' : list Z) :
  view_as_vec s v = inr v' -> length s = length v /\ v' = s.
Proof.
  unfold view_as_vec.
  destruct (Nat.eqb_spec (length s) (length v)); [|discriminate].
  intros H. injection H as <-. auto.
Qed.

Lemma numel_copy (p : param) (t : tensor) :
  numel (value (copy_param p t)) = numel (value p).
Proof. reflexivity. Qed.

Ltac reload_views :=
  repeat first
    [ rewrite view_as_ok by (rewrite ?numel_copy; assumption); cbn [bind]
    | rewrite view_as_vec_ok by reflexivity; cbn [bind] ].

Lemma load_conv_norm_again (ws : list Z) (l l' : conv_layer) (r : list Z) :
  _load_conv_norm ws l = inr (l', r) -> _load_conv_norm ws l' = inr (l', r).
Proof.
  intros H. unfold _load_conv_norm in H.
  destruct (norm l) as [bn|] eqn:Hn; [|discriminate].
  unfold split_at in H. split_views H.
  apply view_as_inv in E as [L1 ->]. apply view_as_inv in E0 as [L2 ->].
  apply view_as_vec_inv in E1 as [L3 ->]. apply view_as_vec_inv in E2 as [L4 ->].
  apply view_as_inv in E3 as [L5 ->].
  injection H as <- <-. unfold _load_conv_norm.
  cbn [norm bn_bias bn_weight running_mean running_var conv conv_weight
       conv_bias batch_norm].
  rewrite !numel_copy, L3, L4. unfold split_at. reload_views. reflexivity.
Qed.

Lemma load_conv_again (ws : list Z) (l l' : conv_layer) (r : list Z) :
  _load_conv ws l = inr (l', r) -> _load_conv ws l' = inr (l', r).
Proof.
  intros H. unfold _load_conv in H.
  destruct (conv_bias (conv l)) as [b|] eqn:Hb; [|discriminate].
  unfold split_at in H. split_views H.
  apply view_as_inv in E as [L1 ->]. apply view_as_inv in E0 as [L2 ->].
  injection H as <- <-. unfold _load_conv.
  cbn [norm conv conv_weight conv_bias batch_norm].
  rewrite !numel_copy. unfold split_at. reload_views. reflexivity.
Qed.

Lemma darknet_numel_conv_layer (l : conv_layer) :
  darknet_numel (ConvLayer l) =
  (pnum (conv_weight (conv l))
   + match conv_bias (conv l) with Some b => pnum b | None => 0 end
   + match norm l with
     | Some bn => pnum (bn_weight bn) + pnum (bn_bias bn)
                  + length (running_mean bn) + length (running_var bn)
     | None => 0
     end)%nat.
Proof.
  rewrite darknet_numel_sums. cbn [parameters batchnorms conv_layer_params].
  unfold pnum, sum_nat, conv_layer_params.
  destruct (conv_bias (conv l)) as [b|], (norm l) as [bn|];
    cbn [app filter map fold_right];
    repeat match goal with
           | |- context [if requires_grad ?p then _ else _] =>
               destruct (requires_grad p)
           end; cbn [map fold_right]; lia.
Qed.

Lemma pnum_copy (p : param) (t : tensor) : pnum (copy_param p t) = pnum p.
Proof. reflexivity. Qed.

Lemma load_conv_norm_same_numel (ws : list Z) (l l' : conv_layer) (r : list Z) :
  _load_conv_norm ws l = inr (l', r) ->
  batch_norm l' = batch_norm l /\
  darknet_numel (ConvLayer l') = darknet_numel (ConvLayer l).
Proof.
  intros H. unfold _load_conv_norm in H.
  destruct (norm l) as [bn|] eqn:Hn; [|discriminate].
  unfold split_at in H. split_views H.
  apply view_as_inv in E as [L1 ->]. apply view_as_inv in E0 as [L2 ->].
  apply view_as_vec_inv in E1 as [L3 ->]. apply view_as_vec_inv in E2 as [L4 ->].
  apply view_as_inv in E3 as [L5 ->].
  injection H as <- _. split; [reflexivity|].
  rewrite !darknet_numel_conv_layer, Hn.
  cbn [norm conv conv_weight conv_bias bn_weight bn_bias running_mean
       running_var].
  rewrite !pnum_copy, L3, L4. reflexivity.
Qed.

Lemma load_conv_same_numel (ws : list Z) (l l' : conv_layer) (r : list Z) :
  _load_conv ws l = inr (l', r) ->
  batch_norm l' = batch_norm l /\
  darknet_numel (ConvLayer l') = darknet_numel (ConvLayer l).
Proof.
  intros H. unfold _load_conv in H.
  destruct (conv_bias (conv l)) as [b|] eqn:Hb; [|discriminate].
  unfold split_at in H. split_views H.
  apply view_as_inv in E as [L1 ->]. apply view_as_inv in E0 as [L2 ->].
  injection H as <- _. split; [reflexivity|].
  rewrite !darknet_numel_conv_layer, Hb.
  cbn [norm conv conv_weight conv_bias]. rewrite !pnum_copy. reflexivity.
Qed.

Lemma layer_again (l l' : conv_layer) (ws r : list Z) :
  (if batch_norm l then _load_conv_norm ws l else _load_conv ws l) = inr (l', r) ->
  (if batch_norm l' then _load_conv_norm ws l' else _load_conv ws l')
    = inr (l', r) /\
  darknet_numel (ConvLayer l') = darknet_numel (ConvLayer l).
Proof.
  destruct (batch_norm l) eqn:B; intros H.
  - destruct (load_conv_norm_same_numel _ _ _ _ H) as [Bn Nm].
    rewrite Bn, B. split; [exact (load_conv_norm_again _ _ _ _ H) | exact Nm].
  - destruct (load_conv_same_numel _ _ _ _ H) as [Bn Nm].
    rewrite Bn, B. split; [exact (load_conv_again _ _ _ _ H) | exact Nm].
Qed.

Lemma load_children_again (cs : list module) (ws : list Z) :
  load_children (fst (load_children cs ws)) ws = load_children cs ws.
Proof.
  revert ws. induction cs as [|c cs IH]; intros ws; [reflexivity|].
  destruct c as [l | bn | ps cs0].
  - cbn [load_children].
    destruct (if batch_norm l then _load_conv_norm ws l else _load_conv ws l)
      as [e | [l' ws']] eqn:E.
    + cbn [fst load_children]. rewrite E. reflexivity.
    + destruct (layer_again l l' ws ws' E) as [E' _].
      specialize (IH ws'). destruct (load_children cs ws') as [cs' r] eqn:Ecs.
      cbn [fst load_children]. rewrite E'. cbn [fst] in IH. rewrite IH.
      reflexivity.
  - rewrite !load_children_other by reflexivity.
    specialize (IH ws). destruct (load_children cs ws) as [cs' r].
    cbn [fst] in *. rewrite load_children_other by reflexivity. now rewrite IH.
  - rewrite !load_children_other by reflexivity.
    specialize (IH ws). destruct (load_children cs ws) as [cs' r].
    cbn [fst] in *. rewrite load_children_other by reflexivity. now rewrite IH.
Qed.

Lemma load_children_numel (ps : list param) (cs : list module) (ws : list Z) :
  darknet_numel (Module ps (fst (load_children cs ws))) =
  darknet_numel (Module ps cs).
Proof.
  revert ws. induction cs as [|c cs IH]; intros ws; [reflexivity|].
  destruct c as [l | bn | ps' cs0].
  - cbn [load_children].
    destruct (if batch_norm l then _load_conv_norm ws l else _load_conv ws l)
      as [e | [l' ws']] eqn:E; [reflexivity|].
    destruct (layer_again l l' ws ws' E) as [_ N].
    specialize (IH ws'). destruct (load_children cs ws') as [cs' r].
    cbn [fst] in *. rewrite !darknet_numel_cons, N, IH. reflexivity.
  - rewrite load_children_other by reflexivity.
    specialize (IH ws). destruct (load_children cs ws) as [cs' r].
    cbn [fst] in *. rewrite !darknet_numel_cons, IH. reflexivity.
  - rewrite load_children_other by reflexivity.
    specialize (IH ws). destruct (load_children cs ws) as [cs' r].
    cbn [fst] in *. rewrite !darknet_numel_cons, IH. reflexivity.
Qed.

Lemma load_keeps_numel (model : module) (f : list Z) :
  darknet_numel (fst (load_darknet_weights model f)) = darknet_numel model.
Proof.
  unfold load_darknet_weights. destruct (fromfile_int32_5 f) as [h rest].
  destruct (unpack_header h); [reflexivity|].
  destruct (negb _); [reflexivity|].
  destruct model as [l | bn | ps cs]; [reflexivity | reflexivity |].
  cbn [named_children]. pose proof (load_children_numel ps cs
                                      (fromfile_float32 rest)) as N.
  destruct (load_children cs (fromfile_float32 rest)). exact N.
Qed.

Lemma load_leaf_untouched (model : module) (f : list Z) :
  named_children model = [] -> with_children model [] = model ->
  fst (load_darknet_weights model f) = model.
Proof.
  intros Hc Hw. unfold load_darknet_weights.
  destruct (fromfile_int32_5 f) as [h rest].
  destruct (unpack_header h); [reflexivity|].
  destruct (negb _); [reflexivity|]. rewrite Hc. exact Hw.
Qed.

Lemma load_twice (model : module) (f : list Z) :
  load_darknet_weights (fst (load_darknet_weights model f)) f =
  load_darknet_weights model f.
Proof.
  pose proof (load_keeps_numel model f) as N.
  destruct model as [l | bn | ps cs].
  1, 2: now rewrite load_leaf_untouched.
  revert N. unfold load_darknet_weights.
  destruct (fromfile_int32_5 f) as [h rest].
  destruct (unpack_header h); [reflexivity|].
  destruct (negb _) eqn:Ec; [intros _; cbn [fst]; now rewrite Ec|].
  cbn [named_children].
  pose proof (load_children_again cs (fromfile_float32 rest)) as A.
  destruct (load_children cs (fromfile_float32 rest)) as [cs' r].
  cbn [fst with_children named_children] in *. intros N. rewrite N, Ec.
  rewrite A. reflexivity.
Qed.

(** X4. Loading only overwrites tensor contents: shapes, [requires_grad]
    flags and running-statistics lengths stay, so [darknet_numel] of the
    model is the same after [load_darknet_weights], whatever the outcome. *)
Theorem load_preserves_darknet_numel (model : module) (f : list Z) :
  darknet_numel (fst (load_darknet_weights model f)) = darknet_numel model.
Proof. exact (load_keeps_numel model f). Qed.

(** X5. Loading the same file a second time into the model the first load
    left behind (completed or stopped by an error) changes nothing more
    and ends the same way. *)
Theorem load_darknet_weights_idempotent (model : module) (f : list Z) :
  load_darknet_weights (fst (load_darknet_weights model f)) f =
  load_darknet_weights model f.
Proof. exact (load_twice model f). Qed.

(** ** A loop stopped by an error *)

Lemma load_children_failure_aux (cs : list module) (ws : list Z)
    (cs' : list module) (e : error) :
  load_children cs ws = (cs', inl e) ->
  exists k rest,
    (k < length cs)%nat /\ is_conv_layer (nth k cs ex_act) = true /\
    skipn k cs' = skipn k cs /\
    load_children (firstn k cs) ws = (firstn k cs', inr rest).
Proof.
  revert ws cs'. induction cs as [|c cs IH]; intros ws cs' H; [discriminate|].
  destruct c as [l | bn | ps cs0].
  - cbn [load_children] in H.
    destruct (if batch_norm l then _load_conv_norm ws l else _load_conv ws l)
      as [e' | [l' ws']] eqn:E.
    + injection H as <- _. exists 0%nat, ws. cbn. repeat split; lia.
    + destruct (load_children cs ws') as [cs'' r] eqn:Ecs.
      injection H as <- ->.
      destruct (IH ws' cs'' Ecs) as (k & rest & Hk & Hc & Hs & Hl).
      exists (S k), rest. cbn [length nth skipn firstn].
      repeat split; [lia | exact Hc | exact Hs |].
      cbn [load_children]. rewrite E, Hl. reflexivity.
  - rewrite load_children_other in H by reflexivity.
    destruct (load_children cs ws) as [cs'' r] eqn:Ecs. injection H as <- ->.
    destruct (IH ws cs'' Ecs) as (k & rest & Hk & Hc & Hs & Hl).
    exists (S k), rest. cbn [length nth skipn firstn].
    repeat split; [lia | exact Hc | exact Hs |].
    rewrite load_children_other by reflexivity. rewrite Hl. reflexivity.
  - rewrite load_children_other in H by reflexivity.
    destruct (load_children cs ws) as [cs'' r] eqn:Ecs. injection H as <- ->.
    destruct (IH ws cs'' Ecs) as (k & rest & Hk & Hc & Hs & Hl).
    exists (S k), rest. cbn [length nth skipn firstn].
    repeat split; [lia | exact Hc | exact Hs |].
    rewrite load_children_other by reflexivity. rewrite Hl. reflexivity.
Qed.

(** X6. When the loop stops with an error, it stopped at some [ConvLayer]
    child [k]: that child and every later one are exactly as they were,
    while the children before it are exactly what loading them alone from
    the same array gives, which succeeds.  Nothing is rolled back. *)
Theorem load_children_failure_prefix (cs : list module) (ws : list Z)
    (cs' : list module) (e : error) :
  load_children cs ws = (cs', inl e) ->
  exists k rest,
    (k < length cs)%nat /\ is_conv_layer (nth k cs ex_act) = true /\
    skipn k cs' = skipn k cs /\
    load_children (firstn k cs) ws = (firstn k cs', inr rest).
Proof. exact (load_children_failure_aux cs ws cs' e). Qed.

(** The second of two plain layers runs out: the first is loaded. *)
Lemma load_children_failure_prefix_witness :
  exists k rest,
    (k < 2)%nat /\
    is_conv_layer (nth k [ConvLayer ex_plain; ConvLayer ex_plain] ex_act)
      = true /\
    skipn k (fst (load_children [ConvLayer ex_plain; ConvLayer ex_plain]
                                (blk 1 30)))
      = skipn k [ConvLayer ex_plain; ConvLayer ex_plain] /\
    load_children (firstn k [ConvLayer ex_plain; ConvLayer ex_plain]) (blk 1 30)
    = (firstn k (fst (load_children [ConvLayer ex_plain; ConvLayer ex_plain]
                                    (blk 1 30))), inr rest).
Proof.
  apply (load_children_failure_prefix [ConvLayer ex_plain; ConvLayer ex_plain]
           (blk 1 30)
           (fst (load_children [ConvLayer ex_plain; ConvLayer ex_plain]
                               (blk 1 30))) ViewError).
  vm_compute. reflexivity.
Defined.

(** ** The payload as [np.fromfile] reads it *)

Lemma words32_length (bs : list Z) : length (words32 bs) = (length bs / 4)%nat.
Proof.
  remember (length bs) as n eqn:Hn. revert bs Hn.
  induction n as [n IH] using lt_wf_ind. intros bs Hn.
  destruct bs as [|b0 [|b1 [|b2 [|b3 bs]]]]; subst n; try reflexivity.
  cbn [words32 length]. rewrite (IH (length bs)) by (cbn; lia || reflexivity).
  replace (S (S (S (S (length bs))))) with (length bs + 1 * 4)%nat by lia.
  rewrite Nat.div_add by lia. lia.
Qed.

Lemma words32_trailing (bs e : list Z) :
  (length bs mod 4 = 0)%nat -> (length e < 4)%nat ->
  words32 (bs ++ e) = words32 bs.
Proof.
  remember (length bs) as n eqn:Hn. revert bs Hn.
  induction n as [n IH] using lt_wf_ind. intros bs Hn Hm He.
  destruct bs as [|b0 [|b1 [|b2 [|b3 bs]]]]; subst n;
    [| cbn in Hm; discriminate .. |].
  - destruct e as [|e0 [|e1 [|e2 [|e3 e]]]]; try reflexivity. cbn in He. lia.
  - cbn [app words32]. f_equal. apply (IH (length bs)); [cbn; lia|reflexivity| |exact He].
    replace (length (b0 :: b1 :: b2 :: b3 :: bs)) with (length bs + 1 * 4)%nat
      in Hm by (cbn; lia). rewrite Nat.Div0.mod_add in Hm. exact Hm.
Qed.

(** X7. After a complete header the count check compares
    [darknet_numel model] with the number of whole 4-byte words after the
    first 20 bytes: the load raises the count error exactly when
    [darknet_numel model <> (length file - 20) / 4]. *)
Theorem load_count_check_bytes (model : module) (f : list Z) :
  (20 <= length f)%nat ->
  (snd (load_darknet_weights model f) = inl UnmatchingWeights <->
   darknet_numel model <> ((length f - 20) / 4)%nat).
Proof.
  intros H.
  assert (Ef : f = firstn 20 f ++ skipn 20 f) by (symmetry; apply firstn_skipn).
  rewrite Ef at 1.
  assert (L : length (firstn 20 f) = 20%nat) by (apply firstn_length_le; lia).
  rewrite (load_after_header _ _ _ L). cbv zeta.
  unfold fromfile_float32. rewrite words32_length, length_skipn.
  destruct (Nat.eqb_spec (darknet_numel model) ((length f - 20) / 4)) as [E|E];
    cbn [negb].
  - split; [|intros N; contradiction]. intros Hs.
    pose proof (load_children_err (named_children model)
                  (words32 (skipn 20 f))) as Err.
    destruct (load_children _ _) as [cs [e | w]]; cbn [snd bind] in *.
    + exfalso. apply Err. injection Hs as ->. reflexivity.
    + discriminate.
  - split; [intros _; exact E | reflexivity].
Qed.

Lemma load_count_check_bytes_witness :
  snd (load_darknet_weights ex_model
         (bytes_of_words ex_header ++ bytes_of_words (blk 1 19) ++ [1; 2; 3]))
  = inl UnmatchingWeights.
Proof.
  apply (load_count_check_bytes ex_model
           (bytes_of_words ex_header ++ bytes_of_words (blk 1 19) ++ [1; 2; 3])).
  - vm_compute. lia.
  - vm_compute. discriminate.
Defined.

(** X8. One to three stray bytes after the last whole float32 are never
    read: appending them to a file with a complete header and a payload of
    whole words loads exactly as the file without them. *)
Theorem load_ignores_trailing_bytes (model : module) (hdr payload e : list Z) :
  length hdr = 20%nat -> (length payload mod 4 = 0)%nat -> (length e < 4)%nat ->
  load_darknet_weights model (hdr ++ payload ++ e) =
  load_darknet_weights model (hdr ++ payload).
Proof.
  intros H Hm He. rewrite !(load_after_header _ _ _ H).
  unfold fromfile_float32. rewrite (words32_trailing _ _ Hm He). reflexivity.
Qed.

Lemma load_ignores_trailing_bytes_witness :
  load_darknet_weights ex_model
    (bytes_of_words ex_header ++ bytes_of_words (blk 1 20) ++ [9; 9; 9]) =
  load_darknet_weights ex_model
    (bytes_of_words ex_header ++ bytes_of_words (blk 1 20)).
Proof.
  apply load_ignores_trailing_bytes; vm_compute; reflexivity || lia.
Defined.

(** ** Composition of the loop and of the count *)

Lemma load_children_app_aux (cs1 cs2 : list module) (ws : list Z) :
  load_children (cs1 ++ cs2) ws =
  let '(cs1', r) := load_children cs1 ws in
  match r with
  | inl e => (cs1' ++ cs2, inl e)
  | inr ws' => let '(cs2', r2) := load_children cs2 ws' in (cs1' ++ cs2', r2)
  end.
Proof.
  revert ws. induction cs1 as [|c cs1 IH]; intros ws.
  - cbn [app load_children]. now destruct (load_children cs2 ws).
  - destruct c as [l | bn | ps cs0].
    + cbn [app load_children].
      destruct (if batch_norm l then _load_conv_norm ws l else _load_conv ws l)
        as [e | [l' ws']]; [reflexivity|].
      rewrite IH. destruct (load_children cs1 ws') as [cs1' [e | w]];
        [reflexivity|]. now destruct (load_children cs2 w).
    + cbn [app]. rewrite !load_children_other by reflexivity. rewrite IH.
      destruct (load_children cs1 ws) as [cs1' [e | w]]; [reflexivity|].
      now destruct (load_children cs2 w).
    + cbn [app]. rewrite !load_children_other by reflexivity. rewrite IH.
      destruct (load_children cs1 ws) as [cs1' [e | w]]; [reflexivity|].
      now destruct (load_children cs2 w).
Qed.

(** X9. The loop over [cs1 ++ cs2] is the loop over [cs1] followed, when
    it did not fail, by the loop over [cs2] on what [cs1] left of the
    array; when it failed, [cs2] is left untouched and the error stands. *)
Theorem load_children_app (cs1 cs2 : list module) (ws : list Z) :
  load_children (cs1 ++ cs2) ws =
  let '(cs1', r) := load_children cs1 ws in
  match r with
  | inl e => (cs1' ++ cs2, inl e)
  | inr ws' => let '(cs2', r2) := load_children cs2 ws' in (cs1' ++ cs2', r2)
  end.
Proof. exact (load_children_app_aux cs1 cs2 ws). Qed.

Lemma sum_pnum (ps : list param) :
  sum_nat (map (fun p => numel (value p)) (filter requires_grad ps)) =
  sum_nat (map pnum ps).
Proof.
  unfold sum_nat, pnum. induction ps as [|p ps IH]; [reflexivity|].
  cbn [filter map fold_right]. destruct (requires_grad p); cbn; lia.
Qed.

(** X10. [darknet_numel] of a container is what its own trainable
    parameters add plus the [darknet_numel] of each child, so modules at
    every depth are counted. *)
Theorem darknet_numel_container (ps : list param) (cs : list module) :
  darknet_numel (Module ps cs) =
  (sum_nat (map pnum ps) + sum_nat (map darknet_numel cs))%nat.
Proof.
  induction cs as [|c cs IH].
  - rewrite darknet_numel_sums. cbn [parameters batchnorms flat_map].
    rewrite app_nil_r, sum_pnum. cbn. lia.
  - rewrite darknet_numel_cons, IH. unfold sum_nat. cbn [map fold_right]. lia.
Qed.

(** ** The header values *)

Lemma to_int32_range (u : Z) :
  0 <= u < 2 ^ 32 -> - 2 ^ 31 <= to_int32 u < 2 ^ 31.
Proof. unfold to_int32. destruct (Z.ltb_spec u (2 ^ 31)); lia. Qed.

Lemma le32_range (b0 b1 b2 b3 : Z) :
  0 <= b0 < 256 -> 0 <= b1 < 256 -> 0 <= b2 < 256 -> 0 <= b3 < 256 ->
  0 <= le32 b0 b1 b2 b3 < 2 ^ 32.
Proof. unfold le32. lia. Qed.

(** X11. For a file of bytes, each of the five header values read as
    [major, minor, revision, seen, _] lies in the signed 32-bit range
    [-2^31, 2^31). *)
Theorem read_header_int32_range (f : list Z) (h : Z * Z * Z * Z * Z)
    (rest : list Z) :
  Forall (fun b => 0 <= b < 256) f ->
  read_header f = inr (h, rest) ->
  let '(major, minor, revision, seen, r) := h in
  Forall (fun v => - 2 ^ 31 <= v < 2 ^ 31) [major; minor; revision; seen; r].
Proof.
  intros Hb H.
  do 20 (destruct f as [|? f]; [discriminate H|]).
  unfold read_header, fromfile_int32_5 in H. cbn in H.
  injection H as <- _.
  repeat match type of Hb with
         | Forall _ (_ :: _) => let Hx := fresh "Hx" in
                                apply Forall_cons_iff in Hb as [Hx Hb]
         end.
  repeat constructor; apply to_int32_range, le32_range; assumption.
Qed.

Lemma read_header_int32_range_witness :
  Forall (fun v => - 2 ^ 31 <= v < 2 ^ 31) [-1; 0; 0; 0; 0].
Proof.
  apply (read_header_int32_range
           ([255; 255; 255; 255] ++ repeat 0 16) (-1, 0, 0, 0, 0) []).
  - repeat constructor; lia.
  - vm_compute. reflexivity.
Defined.
